(** * E-Reader upload gateway (aws-backend/main.go)

    A shallow embedding of the two gin handlers of the Go backend,
    [handleUpload] and [showLibrary], together with the string
    expressions they build: the S3 key of an upload, the listing prefix
    of a user, and the public URLs of a stored object and of its
    thumbnail.

    Go strings are byte sequences and are modelled by [string]; Go's
    [+] is [+:+].  A slice is its elements together with whether it is
    the nil slice, which [encoding/json] writes as [null].  A [*string]
    is an [option string].  [map[string]string] and [gin.H] are [gmap]s
    keyed by strings.  The posted form is the list of its parts, from
    which [c.FormFile] and [c.PostForm] read as net/http's multipart
    reader files them.  What a handler itself does to the outside world
    (opening and closing the uploaded file, calling the uploader or the
    S3 client, logging) is recorded, in order, in a trace of events. *)

From Stdlib Require Import ZArith Lia.
From stdpp Require Import base strings list gmap.

Local Open Scope Z_scope.

(** ** Go string primitives *)

Module GoString.

(** [len(s)], an [int]. *)
Definition len (s : string) : Z := Z.of_nat (String.length s).

Fixpoint drop (n : nat) (s : string) : string :=
  match n, s with
  | O, _ => s
  | S _, EmptyString => EmptyString
  | S n', String _ s' => drop n' s'
  end.

(** [s[i:]].  Outside [0 <= i <= len(s)] the Go run time panics with
    "slice bounds out of range"; that is the [None] here. *)
Definition slice_from (s : string) (i : Z) : option string :=
  if bool_decide (0 ≤ i ≤ len s) then Some (drop (Z.to_nat i) s) else None.

(** [strings.HasSuffix(s, suffix)], which is
    [len(s) >= len(suffix) && s[len(s)-len(suffix):] == suffix]. *)
Definition HasSuffix (s suffix : string) : bool :=
  bool_decide (len suffix ≤ len s)
  && bool_decide (drop (Z.to_nat (len s - len suffix)) s = suffix).

End GoString.

(** ** Go slices *)

Module GoSlice.

(** A slice value: the nil slice, or a slice with its elements. *)
Inductive t (A : Type) : Type :=
| Nil
| Make (elems : list A).
Arguments Nil {A}.
Arguments Make {A} elems.

Definition elements {A : Type} (s : t A) : list A :=
  match s with Nil => [] | Make elems => elems end.

(** [len(s)] *)
Definition len {A : Type} (s : t A) : nat := length (elements s).

(** [append(s, x)]: never the nil slice. *)
Definition append {A : Type} (s : t A) (x : A) : t A := Make (elements s ++ [x]).

End GoSlice.

(** ** The storage namespace and the key and URL expressions *)

(** [bucketName], the package-level variable; never assigned after its
    initialisation. *)
Definition bucketName : string := "books-uploaded".

(** main.go:103-106, "Ensure folder ends with slash":
    [if s3Folder[len(s3Folder)-1:] != "/" { s3Folder += "/" }].
    [None] is the slice-bounds panic. *)
Definition ensureTrailingSlash (s3Folder : string) : option string :=
  last ← GoString.slice_from s3Folder (GoString.len s3Folder - 1);
  Some (if bool_decide (last ≠ "/") then s3Folder +:+ "/" else s3Folder).

(** main.go:118, [s3Key := s3Folder + file.Filename], on the normalised
    folder. *)
Definition s3Key (s3Folder Filename : string) : string := s3Folder +:+ Filename.

(** main.go:134 and 159, ["https://" + bucketName + ".s3.amazonaws.com/" + key].
    Go's [+] associates to the left. *)
Definition pdfURL (key : string) : string :=
  (("https://" +:+ bucketName) +:+ ".s3.amazonaws.com/") +:+ key.

(** main.go:160. *)
Definition thumbnailURL (key : string) : string :=
  ((("https://" +:+ bucketName) +:+ ".s3.amazonaws.com/thumbnails/") +:+ key) +:+ ".jpg".

(** main.go:148, the [Prefix] of the listing: ["users/"+userId + "/"]. *)
Definition listPrefix (userId : string) : string := ("users/" +:+ userId) +:+ "/".

(** The root every public URL of the bucket starts with. *)
Definition namespaceRoot : string := "https://books-uploaded.s3.amazonaws.com/".

(** ** Data of the AWS SDK, of net/http and of gin that the handlers touch *)

(** A Go [error] value, by its message. *)
Definition error : Type := string.

Definition StatusOK : Z := 200.
Definition StatusBadRequest : Z := 400.
Definition StatusInternalServerError : Z := 500.

(** [s3.PutObjectInput], the fields [handleUpload] sets.  [Body] is the
    opened file, modelled by its bytes. *)
Module PutObjectInput.
Record t : Type := {
  Bucket : string;
  Key : string;
  Body : string;
  ACL : string;
  ContentType : string;
}.
End PutObjectInput.

(** [s3.PutObjectOutput]; [ETag] is a [*string]. *)
Module PutObjectOutput.
Record t : Type := { ETag : option string }.
End PutObjectOutput.

(** [manager.UploadOutput], what the SDK's upload manager answers. *)
Module UploadOutput.
Record t : Type := { Location : string; ETag : option string }.
End UploadOutput.

Module ListObjectsV2Input.
Record t : Type := { Bucket : string; Prefix : string }.
End ListObjectsV2Input.

(** [types.Object]; [Key] is a [*string], [None] the nil pointer. *)
Module Object.
Record t : Type := { Key : option string }.
End Object.

Module ListObjectsV2Output.
Record t : Type := { Contents : list Object.t }.
End ListObjectsV2Output.

(** [multipart.FileHeader]: the name and MIME header the client sent with
    the file part, and what [Open()] gives (the bytes, or an error).  The
    part is opened more than once during a request and the stored file may
    be gone in between, so [Open n] is the answer to the call number [n],
    counted from [0]. *)
Module FileHeader.
Record t : Type := {
  Filename : string;
  Header : gmap string string;
  Open : nat → string + error;
}.
End FileHeader.

(** One part of the posted form: the [name] and [filename] of its
    Content-Disposition (the file name as [Part.FileName()] reports it,
    empty when there is none), its MIME header, its content, and the error,
    if any, of each later attempt to open it once stored. *)
Module Part.
Record t : Type := {
  FormName : string;
  FileName : string;
  Header : gmap string string;
  Content : string;
  OpenError : nat → option error;
}.

(** net/http's multipart reader files a part with an empty file name
    under the form's values and every other part under its files. *)
Definition isValue (name : string) (p : t) : bool :=
  bool_decide (FormName p = name ∧ FileName p = "").

Definition isFile (name : string) (p : t) : bool :=
  bool_decide (FormName p = name ∧ FileName p ≠ "").

(** The [*multipart.FileHeader] of a part filed under the files. *)
Definition fileHeader (p : t) : FileHeader.t := {|
  FileHeader.Filename := FileName p;
  FileHeader.Header := Header p;
  FileHeader.Open := λ n,
    match OpenError p n with
    | Some err => inr err
    | None => inl (Content p)
    end;
|}.

(** A text field, and a file that opens every time. *)
Definition field (name value : string) : t := {|
  FormName := name; FileName := ""; Header := ∅; Content := value;
  OpenError := λ _, None;
|}.

Definition file (name filename : string) (header : gmap string string)
    (content : string) : t := {|
  FormName := name; FileName := filename; Header := header; Content := content;
  OpenError := λ _, None;
|}.
End Part.

(** The part of [*gin.Context] the handlers read: the parts of the posted
    form, in the order they were sent, and the query string. *)
Module Context.
Record t : Type := {
  Form : list Part.t;
  QueryValue : gmap string string;
}.

(** [c.Request.MultipartForm.File[name][0]], when there is one. *)
Definition MultipartFile (c : t) (name : string) : option FileHeader.t :=
  Part.fileHeader <$> List.find (Part.isFile name) (Form c).

(** [c.FormFile(name)]: the first file of that name.  gin opens it, which
    is the call number [0] of [Open], hands on the error if that fails,
    and closes it again. *)
Definition FormFile (c : t) (name : string) : FileHeader.t + error :=
  match MultipartFile c name with
  | None => inr "http: no such file"
  | Some file =>
    match FileHeader.Open file 0%nat with
    | inr err => inr err
    | inl _ => inl file
    end
  end.

(** [c.PostForm(key)]: the first value of that name, or the empty string
    when there is none. *)
Definition PostForm (c : t) (key : string) : string :=
  match List.find (Part.isValue key) (Form c) with
  | Some p => Part.Content p
  | None => ""
  end.

(** [c.Query(key)]: the value in the query string, or the empty string. *)
Definition Query (c : t) (key : string) : string :=
  default "" (QueryValue c !! key).
End Context.

(** The values stored in a [gin.H] by the handlers: a string, or the
    slice of books. *)
Inductive any : Type :=
| AString (s : string)
| ABooks (books : GoSlice.t (gmap string string)).

(** What [c.JSON(code, obj)] writes. *)
Record Response : Type := { code : Z; obj : gmap string any }.

(** How [encoding/json], which [c.JSON] writes the payload with, renders
    these values: a string as a string, the nil slice as [null], any
    other slice as an array. *)
Inductive JSONValue : Type :=
| JNull
| JString (s : string)
| JArray (objects : list (gmap string string)).

Definition renderJSON (v : any) : JSONValue :=
  match v with
  | AString s => JString s
  | ABooks GoSlice.Nil => JNull
  | ABooks (GoSlice.Make elems) => JArray elems
  end.

(** ** The uploader interface and its adapter *)

(** [type FileUploader interface { Upload(ctx, input) (output, error) }] *)
Class FileUploader (U : Type) : Type :=
  Upload : U → PutObjectInput.t → PutObjectOutput.t + error.

(** [manager.Uploader], by what its [Upload] answers. *)
Record manager_Uploader : Type := {
  manager_Upload : PutObjectInput.t → UploadOutput.t + error;
}.

Record UploaderAdapter : Type := { uploader : manager_Uploader }.

Definition NewUploaderAdapter (uploader : manager_Uploader) : UploaderAdapter :=
  {| uploader := uploader |}.

#[global] Instance UploaderAdapter_Upload : FileUploader UploaderAdapter :=
  λ ua input,
    match manager_Upload (uploader ua) input with
    | inr err => inr err
    | inl result => inl {| PutObjectOutput.ETag := UploadOutput.ETag result |}
    end.

(** An uploader given directly by its answers, as a test double is. *)
#[global] Instance function_Upload :
  FileUploader (PutObjectInput.t → PutObjectOutput.t + error) :=
  λ f input, f input.

(** [*s3.Client], by what [ListObjectsV2] answers. *)
Record S3Client : Type := {
  ListObjectsV2 : ListObjectsV2Input.t → ListObjectsV2Output.t + error;
}.

(** ** Handlers as computations over a trace *)

Inductive Event : Type :=
| FileOpened (Filename : string)
| FileClosed (Filename : string)
| UploadCalled (input : PutObjectInput.t)
| ListObjectsV2Called (input : ListObjectsV2Input.t)
| Logged (line : string).

(** How a piece of a handler ends: it goes on with a value, it has written
    the response and returned, or it has panicked. *)
Inductive Outcome (A : Type) : Type :=
| Next (a : A)
| Replied (r : Response)
| Panicked.
Arguments Next {A} a.
Arguments Replied {A} r.
Arguments Panicked {A}.

Definition Handler (A : Type) : Type := list Event → Outcome A * list Event.

#[global] Instance Handler_ret : MRet Handler := λ A a t, (Next a, t).

#[global] Instance Handler_bind : MBind Handler := λ A B f m t,
  match m t with
  | (Next a, t') => f a t'
  | (Replied r, t') => (Replied r, t')
  | (Panicked, t') => (Panicked, t')
  end.

(** [c.JSON(code, obj); return] *)
Definition JSON {A : Type} (code : Z) (obj : gmap string any) : Handler A :=
  λ t, (Replied {| code := code; obj := obj |}, t).

Definition emit (e : Event) : Handler unit := λ t, (Next (), t ++ [e]).

(** A run-time panic where the embedded expression has no value. *)
Definition orPanic {A : Type} (o : option A) : Handler A :=
  λ t, match o with Some a => (Next a, t) | None => (Panicked, t) end.

(** [defer]: the deferred call runs when the enclosing function is left,
    however it is left. *)
Definition defer {A : Type} (e : Event) (body : Handler A) : Handler A :=
  λ t, let '(o, t') := body t in (o, t' ++ [e]).

Definition run {A : Type} (h : Handler A) : Outcome A * list Event := h [].

(** ** The handlers *)

(** main.go:134 *)
Definition fileURL (s3Key : string) : string :=
  (("https://" +:+ bucketName) +:+ ".s3.amazonaws.com/") +:+ s3Key.

(** main.go:88-136.  [file.Open()] at line 110 is the second opening of
    the part, after the one inside [c.FormFile]. *)
Definition handleUpload `{FileUploader U} (c : Context.t) (uploader : U) : Handler unit :=
  match Context.FormFile c "pdf" with
  | inr err => JSON StatusBadRequest {[ "error" := AString "Failed to upload file" ]}
  | inl file =>
    let s3Folder := Context.PostForm c "s3_path" in
    if bool_decide (s3Folder = "") then
      JSON StatusBadRequest {[ "error" := AString "Missing s3_path" ]}
    else
      s3Folder ← orPanic (ensureTrailingSlash s3Folder);
      match FileHeader.Open file 1%nat with
      | inr openErr => JSON StatusBadRequest {[ "error" := AString "Failed to open file" ]}
      | inl f =>
        emit (FileOpened (FileHeader.Filename file));;
        defer (FileClosed (FileHeader.Filename file)) (
          let s3Key := s3Key s3Folder (FileHeader.Filename file) in
          let input := {|
            PutObjectInput.Bucket := bucketName;
            PutObjectInput.Key := s3Key;
            PutObjectInput.Body := f;
            PutObjectInput.ACL := "public-read";
            PutObjectInput.ContentType := "application/pdf";
          |} in
          emit (UploadCalled input);;
          match Upload uploader input with
          | inr uploadErr =>
            JSON StatusInternalServerError {[ "error" := AString "Failed to upload file" ]}
          | inl _ =>
            let fileURL := fileURL s3Key in
            JSON StatusOK {[ "pdf_url" := AString fileURL;
                             "pdf_name" := AString (FileHeader.Filename file) ]}
          end)
      end
  end.

(** main.go:158-170, the loop over [resp.Contents]; [books] is the slice
    built so far.  [*item.Key] is read first in each round (line 159) and
    panics on the nil pointer. *)
Fixpoint rangeContents (Contents : list Object.t) (books : GoSlice.t (gmap string string))
    : Handler (GoSlice.t (gmap string string)) :=
  match Contents with
  | [] => mret books
  | item :: rest =>
    key ← orPanic (Object.Key item);
    let pdfURL := pdfURL key in
    let thumbnailURL := thumbnailURL key in
    emit (Logged ("PDF URL: " +:+ pdfURL));;
    emit (Logged ("Thumbnail URL: " +:+ thumbnailURL));;
    rangeContents rest (GoSlice.append books {[ "url" := pdfURL;
                                                "thumbnail" := thumbnailURL;
                                                "name" := key ]})
  end.

(** main.go:139-173; [s3Client] is the package-level client, and
    [var books []map[string]string] the nil slice. *)
Definition showLibrary (s3Client : S3Client) (c : Context.t) : Handler unit :=
  let userId := Context.Query c "userId" in
  if bool_decide (userId = "") then
    JSON StatusBadRequest {[ "error" := AString "Missing userId" ]}
  else
    let input := {|
      ListObjectsV2Input.Bucket := bucketName;
      ListObjectsV2Input.Prefix := listPrefix userId;
    |} in
    emit (ListObjectsV2Called input);;
    match ListObjectsV2 s3Client input with
    | inr err => JSON StatusInternalServerError {[ "error" := AString "Failed to load library" ]}
    | inl resp =>
      books ← rangeContents (ListObjectsV2Output.Contents resp) GoSlice.Nil;
      JSON StatusOK {[ "books" := ABooks books ]}
    end.

(** ** Reading a run *)

(** The calls of [uploader.Upload] in a trace, in order. *)
Definition uploads (t : list Event) : list PutObjectInput.t :=
  omap (λ e, match e with UploadCalled input => Some input | _ => None end) t.

(** The calls of [s3Client.ListObjectsV2] in a trace, in order. *)
Definition listings (t : list Event) : list ListObjectsV2Input.t :=
  omap (λ e, match e with ListObjectsV2Called input => Some input | _ => None end) t.

Definition response {A : Type} (r : Outcome A * list Event) : option Response :=
  match r.1 with Replied resp => Some resp | _ => None end.


(** ** The operations under the names the specification gives them *)

(** [BuildKey]: the key [handleUpload] computes from the [s3_path] field
    and the file name (main.go:103-118). *)
Definition BuildKey (folder filename : string) : option string :=
  s3Folder ← ensureTrailingSlash folder;
  Some (s3Key s3Folder filename).

(** [BuildListPrefix]: the [Prefix] of the listing (main.go:148). *)
Definition BuildListPrefix (ownerId : string) : string := listPrefix ownerId.

(** The backend writes and listings of a whole run. *)
Definition writes {A : Type} (r : Outcome A * list Event) : list PutObjectInput.t :=
  uploads r.2.

Definition backendCalls {A : Type} (r : Outcome A * list Event) : nat :=
  length (uploads r.2) + length (listings r.2).

(** The entry [showLibrary] appends for a listed key. *)
Definition libraryEntry (key : string) : gmap string string :=
  {[ "url" := pdfURL key;
     "thumbnail" := thumbnailURL key;
     "name" := key ]}.

(** The keys of the listed objects up to the first nil key: the objects
    the loop of [showLibrary] gets through. *)
Fixpoint keysBeforeNil (Contents : list Object.t) : list string :=
  match Contents with
  | [] => []
  | item :: rest =>
    match Object.Key item with
    | Some key => key :: keysBeforeNil rest
    | None => []
    end
  end.

(** What the loop of [showLibrary] logs for these keys. *)
Definition loopLog (keys : list string) : list Event :=
  key ← keys;
  [ Logged ("PDF URL: " +:+ pdfURL key);
    Logged ("Thumbnail URL: " +:+ thumbnailURL key) ].

(** The slice after appending each of [entries] in turn. *)
Definition appendAll {A : Type} (books : GoSlice.t A) (entries : list A) : GoSlice.t A :=
  foldl GoSlice.append books entries.

(** ** Sample requests and backends *)

Definition bookFormPart : Part.t :=
  Part.file "pdf" "book.pdf" {[ "Content-Type" := "text/plain" ]} "%PDF-1.4".

Definition bookPart : FileHeader.t := Part.fileHeader bookFormPart.

(** An upload of [book.pdf] into [users/42]. *)
Definition uploadRequest : Context.t := {|
  Context.Form := [ bookFormPart; Part.field "s3_path" "users/42" ];
  Context.QueryValue := ∅;
|}.


(** A request that carries neither a file part nor any field. *)
Definition bareRequest : Context.t := {|
  Context.Form := [];
  Context.QueryValue := ∅;
|}.



Definition libraryRequest : Context.t := {|
  Context.Form := [];
  Context.QueryValue := {[ "userId" := "42" ]};
|}.

Definition acceptAll : PutObjectInput.t → PutObjectOutput.t + error :=
  λ _, inl {| PutObjectOutput.ETag := Some "etag" |}.

Definition rejectAll : PutObjectInput.t → PutObjectOutput.t + error :=
  λ _, inr "AccessDenied".

(** A bucket in which the listing finds the two given keys, in this order. *)
Definition twoBooks : S3Client := {|
  ListObjectsV2 := λ _, inl {| ListObjectsV2Output.Contents :=
                                 [ {| Object.Key := Some "users/42/b.pdf" |};
                                   {| Object.Key := Some "users/42/a.pdf" |} ] |};
|}.

(** A bucket in which the listing finds nothing. *)
Definition emptyBucket : S3Client := {|
  ListObjectsV2 := λ _, inl {| ListObjectsV2Output.Contents := [] |};
|}.

(** A listing whose second object comes without a key. *)
Definition keylessObject : S3Client := {|
  ListObjectsV2 := λ _, inl {| ListObjectsV2Output.Contents :=
                                 [ {| Object.Key := Some "users/42/b.pdf" |};
                                   {| Object.Key := None |} ] |};
|}.

(** [c], with the MIME header of its ["pdf"] parts replaced. *)
Definition withPartHeader (c : Context.t) (header : gmap string string) : Context.t := {|
  Context.Form :=
    (λ p, if bool_decide (Part.FormName p = "pdf") then
            {| Part.FormName := Part.FormName p;
               Part.FileName := Part.FileName p;
               Part.Header := header;
               Part.Content := Part.Content p;
               Part.OpenError := Part.OpenError p |}
          else p) <$> Context.Form c;
  Context.QueryValue := Context.QueryValue c;
|}.




(** A file part that cannot be opened at all, not even by [c.FormFile]. *)
Definition lostFormPart : Part.t := {|
  Part.FormName := "pdf";
  Part.FileName := "book.pdf";
  Part.Header := ∅;
  Part.Content := "%PDF-1.4";
  Part.OpenError := λ _, Some "open : no such file or directory";
|}.

Definition lostRequest : Context.t := {|
  Context.Form := [ lostFormPart; Part.field "s3_path" "users/42" ];
  Context.QueryValue := ∅;
|}.

(** A client whose listing fails. *)
Definition brokenBucket : S3Client := {| ListObjectsV2 := λ _, inr "AccessDenied" |}.

(** Upload managers that accept, respectively refuse, every object. *)
Definition managerUp : manager_Uploader := {|
  manager_Upload := λ input,
    inl {| UploadOutput.Location := "https://books-uploaded.s3.amazonaws.com/x";
           UploadOutput.ETag := Some "etag" |};
|}.

Definition managerDown : manager_Uploader := {|
  manager_Upload := λ _, inr "RequestTimeout";
|}.

(** * Properties *)

(** ** Go strings *)

Module GoStringFacts.
Import GoString.

Lemma app_nil_l (b : string) : "" +:+ b = b.
Proof. reflexivity. Qed.

Lemma app_cons (x : Ascii.ascii) (a b : string) :
  String x a +:+ b = String x (a +:+ b).
Proof. reflexivity. Qed.

Lemma app_assoc (a b c : string) : (a +:+ b) +:+ c = a +:+ (b +:+ c).
Proof.
  induction a as [|x a IH]; [done |].
  rewrite !app_cons. by f_equal.
Qed.

Lemma length_app (a b : string) :
  String.length (a +:+ b) = (String.length a + String.length b)%nat.
Proof.
  induction a as [|x a IH]; [done |].
  rewrite app_cons; simpl. by f_equal.
Qed.

Lemma len_app (a b : string) : len (a +:+ b) = len a + len b.
Proof. unfold len. rewrite length_app. lia. Qed.

Lemma len_pos (s : string) : s ≠ "" → 0 < len s.
Proof. destruct s; [done | unfold len; simpl; lia]. Qed.

Lemma app_not_nil_r (a b : string) : b ≠ "" → a +:+ b ≠ "".
Proof.
  intros Hb Hab. apply (f_equal len) in Hab. rewrite len_app in Hab.
  pose proof (len_pos b Hb). unfold len in *. simpl in Hab. lia.
Qed.

Lemma drop_app_length (a b : string) : drop (String.length a) (a +:+ b) = b.
Proof.
  induction a as [|x a IH]; [by destruct b |].
  rewrite app_cons; simpl. done.
Qed.

(** A string is its first [n] bytes followed by [drop n s]. *)
Lemma drop_split (n : nat) (s : string) :
  (n ≤ String.length s)%nat →
  ∃ front, s = front +:+ drop n s ∧ String.length front = n.
Proof.
  revert s; induction n as [|n IH]; intros s Hn.
  - exists "". by destruct s.
  - destruct s as [|x s]; simpl in *; [lia |].
    destruct (IH s) as (front & Hs & Hlen); [lia |].
    exists (String x front). rewrite app_cons; simpl.
    split; [by rewrite <- Hs | by rewrite Hlen].
Qed.

(** [+] cancels on the right. *)
Lemma app_inv_tail (a b c : string) : a +:+ c = b +:+ c → a = b.
Proof.
  revert b; induction a as [|x a IH]; intros [|y b] Heq; [done | | |].
  - apply (f_equal String.length) in Heq.
    rewrite app_nil_l, app_cons in Heq; simpl in Heq.
    rewrite length_app in Heq. lia.
  - apply (f_equal String.length) in Heq.
    rewrite app_nil_l, app_cons in Heq; simpl in Heq.
    rewrite length_app in Heq. lia.
  - rewrite !app_cons in Heq. injection Heq as -> Heq. f_equal. by apply IH.
Qed.

Lemma HasSuffix_spec (s suffix : string) :
  HasSuffix s suffix = true ↔ ∃ front, s = front +:+ suffix.
Proof.
  unfold HasSuffix. rewrite andb_true_iff, !bool_decide_eq_true. split.
  - intros [Hle Hdrop].
    destruct (drop_split (Z.to_nat (len s - len suffix)) s) as (front & Hs & _).
    { unfold len in *; lia. }
    exists front. by rewrite Hdrop in Hs.
  - intros [front ->]. rewrite len_app. split; [unfold len; lia |].
    replace (Z.to_nat (len front + len suffix - len suffix))
      with (String.length front) by (unfold len; lia).
    apply drop_app_length.
Qed.

Lemma HasSuffix_app (front suffix : string) : HasSuffix (front +:+ suffix) suffix = true.
Proof. apply HasSuffix_spec. by exists front. Qed.

(** [s[len(s)-1:]] on a non-empty string does not panic, and comparing
    it with ["/"] is the suffix test. *)
Lemma slice_from_last (s : string) :
  s ≠ "" →
  ∃ last, slice_from s (len s - 1) = Some last
          ∧ bool_decide (last ≠ "/") = negb (HasSuffix s "/").
Proof.
  intros Hs. pose proof (len_pos s Hs) as Hpos.
  unfold slice_from. rewrite bool_decide_eq_true_2 by lia.
  eexists; split; [done |].
  unfold HasSuffix. change (len "/") with 1.
  rewrite (bool_decide_eq_true_2 (1 ≤ len s)) by lia. simpl.
  by rewrite bool_decide_not.
Qed.

End GoStringFacts.

(** ** Key policy *)

Lemma ensureTrailingSlash_nonempty (folder : string) :
  folder ≠ "" →
  ensureTrailingSlash folder
  = Some (if GoString.HasSuffix folder "/" then folder else folder +:+ "/").
Proof.
  intros Hne. unfold ensureTrailingSlash.
  destruct (GoStringFacts.slice_from_last folder Hne) as (last & -> & Hcmp).
  simpl. rewrite Hcmp. by destruct (GoString.HasSuffix folder "/").
Qed.

Lemma ensureTrailingSlash_empty : ensureTrailingSlash "" = None.
Proof. reflexivity. Qed.

Lemma ensureTrailingSlash_suffix (folder normalised : string) :
  ensureTrailingSlash folder = Some normalised →
  folder ≠ "" ∧ GoString.HasSuffix normalised "/" = true.
Proof.
  destruct (decide (folder = "")) as [-> | Hne]; [done |].
  rewrite ensureTrailingSlash_nonempty by done.
  destruct (GoString.HasSuffix folder "/") eqn:Hsuf; intros [= <-].
  - done.
  - split; [done | apply GoStringFacts.HasSuffix_app].
Qed.

(** C1. For a non-empty folder that does not end with ["/"] and a
    non-empty file name the key is [folder + "/" + filename]; for a folder
    that already ends with ["/"] it is [folder + filename].  Normalising
    the folder is idempotent, and it introduces no doubled separator at
    the end of a folder that had none. *)
Theorem BuildKey_separator (folder filename : string) :
  folder ≠ "" → filename ≠ "" →
  (GoString.HasSuffix folder "/" = false →
     BuildKey folder filename = Some ((folder +:+ "/") +:+ filename))
  ∧ (GoString.HasSuffix folder "/" = true →
     BuildKey folder filename = Some (folder +:+ filename))
  ∧ (∀ normalised, ensureTrailingSlash folder = Some normalised →
       ensureTrailingSlash normalised = Some normalised
       ∧ (GoString.HasSuffix folder "//" = false →
          GoString.HasSuffix normalised "//" = false)).
Proof.
  intros Hfolder _. unfold BuildKey, s3Key.
  rewrite ensureTrailingSlash_nonempty by done.
  split; [by intros -> | split; [by intros -> |]].
  intros normalised Hnorm. split.
  - assert (normalised ≠ "") as Hne.
    { destruct (GoString.HasSuffix folder "/"); injection Hnorm as <-;
        [done | by apply GoStringFacts.app_not_nil_r]. }
    rewrite ensureTrailingSlash_nonempty by done.
    replace (GoString.HasSuffix normalised "/") with true; [done |].
    destruct (GoString.HasSuffix folder "/") eqn:Hsuf; injection Hnorm as <-;
      [done | by rewrite GoStringFacts.HasSuffix_app].
  - intros Hno.
    destruct (GoString.HasSuffix folder "/") eqn:Hsuf; injection Hnorm as <-; [done |].
    apply not_true_is_false. intros [front Hfront]%GoStringFacts.HasSuffix_spec.
    change "//" with ("/" +:+ "/") in Hfront.
    rewrite <- GoStringFacts.app_assoc in Hfront.
    apply GoStringFacts.app_inv_tail in Hfront.
    assert (GoString.HasSuffix folder "/" = true) as Hyes
      by (apply GoStringFacts.HasSuffix_spec; by exists front).
    congruence.
Qed.

Lemma BuildKey_separator_witness :
  BuildKey "users/42" "book.pdf" = Some "users/42/book.pdf"
  ∧ BuildKey "users/42/" "book.pdf" = Some "users/42/book.pdf".
Proof.
  split.
  - apply (BuildKey_separator "users/42" "book.pdf"); [done | done | reflexivity].
  - apply (BuildKey_separator "users/42/" "book.pdf"); [done | done | reflexivity].
Defined.

(** ** What a run of each handler is *)

Lemma appendAll_Make {A : Type} (elems entries : list A) :
  appendAll (GoSlice.Make elems) entries = GoSlice.Make (elems ++ entries).
Proof.
  unfold appendAll. revert elems.
  induction entries as [|entry rest IH]; intros elems; simpl.
  - by rewrite app_nil_r.
  - unfold GoSlice.append at 2. simpl. rewrite IH. by rewrite <- app_assoc.
Qed.

(** Appending nothing leaves the slice as it is, nil if it was nil;
    appending something gives a slice that is not nil. *)
Lemma appendAll_Nil {A : Type} (entries : list A) :
  appendAll GoSlice.Nil entries
  = match entries with [] => GoSlice.Nil | _ :: _ => GoSlice.Make entries end.
Proof.
  destruct entries as [|entry rest]; [done |].
  change (appendAll GoSlice.Nil (entry :: rest))
    with (appendAll (GoSlice.Make [entry]) rest).
  by rewrite appendAll_Make.
Qed.

Lemma loopLog_cons (key : string) (rest : list string) :
  loopLog (key :: rest)
  = Logged ("PDF URL: " +:+ pdfURL key)
    :: Logged ("Thumbnail URL: " +:+ thumbnailURL key)
    :: loopLog rest.
Proof. reflexivity. Qed.

(** When every listed object has a key, the loop gets through all of
    them. *)
Lemma keysBeforeNil_keyed (Contents : list Object.t) (keys : list string) :
  Object.Key <$> Contents = Some <$> keys → keysBeforeNil Contents = keys.
Proof.
  revert keys. induction Contents as [|item rest IH]; intros [|key keys] Heq;
    try done.
  simpl in Heq. injection Heq as Hkey Hrest.
  simpl. rewrite Hkey. f_equal. by apply IH.
Qed.

Lemma length_keysBeforeNil (Contents : list Object.t) :
  (length (keysBeforeNil Contents) ≤ length Contents)%nat.
Proof.
  induction Contents as [|item rest IH]; simpl; [lia |].
  destruct (Object.Key item); simpl; lia.
Qed.

(** The loop gets through all objects exactly when none has a nil key. *)
Lemma keysBeforeNil_all (Contents : list Object.t) :
  length (keysBeforeNil Contents) = length Contents
  ↔ ∀ item, item ∈ Contents → Object.Key item ≠ None.
Proof.
  induction Contents as [|item rest IH]; simpl.
  - split; [intros _ item Hin; by apply elem_of_nil in Hin | done].
  - destruct (Object.Key item) as [key |] eqn:Hkey; simpl.
    + split.
      * intros Hlen other [-> | Hin]%elem_of_cons; [by rewrite Hkey |].
        apply IH; [lia | done].
      * intros Hall. f_equal. apply IH. intros other Hin. apply Hall. by right.
    + split; [lia |]. intros Hall. exfalso. by apply (Hall item); [left |].
Qed.

Lemma rangeContents_run (Contents : list Object.t)
    (books : GoSlice.t (gmap string string)) (t : list Event) :
  rangeContents Contents books t
  = (if bool_decide (length (keysBeforeNil Contents) = length Contents)
     then Next (appendAll books (libraryEntry <$> keysBeforeNil Contents))
     else Panicked,
     t ++ loopLog (keysBeforeNil Contents)).
Proof.
  revert books t. induction Contents as [|item rest IH]; intros books t.
  - simpl. by rewrite app_nil_r.
  - simpl. unfold mbind at 1, Handler_bind, orPanic.
    destruct (Object.Key item) as [key |]; simpl.
    + unfold mbind at 1 2, Handler_bind, emit. rewrite IH.
      rewrite <- !app_assoc. simpl.
      rewrite (bool_decide_ext (S (length (keysBeforeNil rest)) = S (length rest))
                 (length (keysBeforeNil rest) = length rest)) by lia.
      by destruct (bool_decide _).
    + by rewrite app_nil_r.
Qed.

Lemma run_showLibrary (s3Client : S3Client) (c : Context.t) :
  run (showLibrary s3Client c)
  = let userId := Context.Query c "userId" in
    if bool_decide (userId = "") then
      (Replied {| code := 400; obj := {[ "error" := AString "Missing userId" ]} |}, [])
    else
      let input := {| ListObjectsV2Input.Bucket := bucketName;
                      ListObjectsV2Input.Prefix := listPrefix userId |} in
      match ListObjectsV2 s3Client input with
      | inr _ =>
        (Replied {| code := 500; obj := {[ "error" := AString "Failed to load library" ]} |},
         [ListObjectsV2Called input])
      | inl resp =>
        let keys := keysBeforeNil (ListObjectsV2Output.Contents resp) in
        (if bool_decide (length keys = length (ListObjectsV2Output.Contents resp))
         then Replied {| code := 200;
                         obj := {[ "books" := ABooks (appendAll GoSlice.Nil
                                                        (libraryEntry <$> keys)) ]} |}
         else Panicked,
         ListObjectsV2Called input :: loopLog keys)
      end.
Proof.
  unfold run, showLibrary. simpl. case_bool_decide; [done |].
  unfold mbind at 1, Handler_bind, emit. simpl.
  destruct (ListObjectsV2 s3Client _) as [resp | err]; [| done].
  unfold mbind, Handler_bind. rewrite rangeContents_run.
  by destruct (bool_decide _).
Qed.

Lemma run_handleUpload `{FileUploader U} (c : Context.t) (uploader : U) :
  run (handleUpload c uploader)
  = match Context.FormFile c "pdf" with
    | inr _ =>
      (Replied {| code := 400; obj := {[ "error" := AString "Failed to upload file" ]} |}, [])
    | inl file =>
      let folder := Context.PostForm c "s3_path" in
      if bool_decide (folder = "") then
        (Replied {| code := 400; obj := {[ "error" := AString "Missing s3_path" ]} |}, [])
      else
        let s3Folder := if GoString.HasSuffix folder "/" then folder else folder +:+ "/" in
        match FileHeader.Open file 1%nat with
        | inr _ =>
          (Replied {| code := 400; obj := {[ "error" := AString "Failed to open file" ]} |}, [])
        | inl f =>
          let input := {|
            PutObjectInput.Bucket := bucketName;
            PutObjectInput.Key := s3Folder +:+ FileHeader.Filename file;
            PutObjectInput.Body := f;
            PutObjectInput.ACL := "public-read";
            PutObjectInput.ContentType := "application/pdf";
          |} in
          (Replied
             match Upload uploader input with
             | inr _ =>
               {| code := 500; obj := {[ "error" := AString "Failed to upload file" ]} |}
             | inl _ =>
               {| code := 200;
                  obj := {[ "pdf_url" := AString (fileURL (PutObjectInput.Key input));
                            "pdf_name" := AString (FileHeader.Filename file) ]} |}
             end,
           [ FileOpened (FileHeader.Filename file);
             UploadCalled input;
             FileClosed (FileHeader.Filename file) ])
        end
    end.
Proof.
  unfold run, handleUpload.
  destruct (Context.FormFile c "pdf") as [file | err]; [| done].
  simpl. case_bool_decide as Hfolder; [done |].
  unfold mbind at 1, Handler_bind.
  rewrite ensureTrailingSlash_nonempty by done. unfold orPanic.
  destruct (FileHeader.Open file 1%nat) as [f | openErr]; [| done].
  unfold mbind at 1, Handler_bind, emit, defer. simpl.
  unfold mbind, Handler_bind, s3Key. simpl.
  by destruct (Upload uploader _).
Qed.



Lemma listings_loopLog (keys : list string) : listings (loopLog keys) = [].
Proof. induction keys as [|key rest IH]; [done | exact IH]. Qed.

Lemma uploads_loopLog (keys : list string) : uploads (loopLog keys) = [].
Proof. induction keys as [|key rest IH]; [done | exact IH]. Qed.

Lemma pdfURL_root (key : string) : pdfURL key = namespaceRoot +:+ key.
Proof. reflexivity. Qed.

Lemma thumbnailURL_root (key : string) :
  thumbnailURL key = namespaceRoot +:+ "thumbnails/" +:+ key +:+ ".jpg".
Proof.
  unfold thumbnailURL.
  change (("https://" +:+ bucketName) +:+ ".s3.amazonaws.com/thumbnails/")
    with (namespaceRoot +:+ "thumbnails/").
  by rewrite !GoStringFacts.app_assoc.
Qed.

Lemma thumbnailURL_explicit (key : string) :
  thumbnailURL key
  = "https://books-uploaded.s3.amazonaws.com/thumbnails/" +:+ key +:+ ".jpg".
Proof.
  unfold thumbnailURL.
  change (("https://" +:+ bucketName) +:+ ".s3.amazonaws.com/thumbnails/")
    with "https://books-uploaded.s3.amazonaws.com/thumbnails/".
  apply GoStringFacts.app_assoc.
Qed.

(** ** Listing *)

(** C2. For a non-empty owner the listing prefix is
    ["users/" + ownerId + "/"], the owner's bytes unchanged, and that is
    the prefix [showLibrary] sends to the backend, in its only call. *)
Theorem BuildListPrefix_exact (s3Client : S3Client) (c : Context.t) (ownerId : string) :
  ownerId ≠ "" →
  Context.Query c "userId" = ownerId →
  BuildListPrefix ownerId = "users/" +:+ ownerId +:+ "/"
  ∧ listings (run (showLibrary s3Client c)).2
    = [ {| ListObjectsV2Input.Bucket := "books-uploaded";
           ListObjectsV2Input.Prefix := "users/" +:+ ownerId +:+ "/" |} ].
Proof.
  intros Hne Hq.
  assert (listPrefix ownerId = "users/" +:+ ownerId +:+ "/") as Hprefix
    by apply GoStringFacts.app_assoc.
  split; [done |].
  rewrite run_showLibrary, Hq. cbn zeta. rewrite bool_decide_eq_false_2 by done.
  rewrite Hprefix.
  destruct (ListObjectsV2 s3Client _) as [resp | err]; cbn [snd]; [| done].
  unfold listings at 1. cbn [omap list_omap].
  fold (listings (loopLog (keysBeforeNil (ListObjectsV2Output.Contents resp)))).
  by rewrite listings_loopLog.
Qed.

Lemma BuildListPrefix_exact_witness :
  BuildListPrefix "42" = "users/42/"
  ∧ listings (run (showLibrary twoBooks libraryRequest)).2
    = [ {| ListObjectsV2Input.Bucket := "books-uploaded";
           ListObjectsV2Input.Prefix := "users/42/" |} ].
Proof.
  apply (BuildListPrefix_exact twoBooks libraryRequest "42"); [done | reflexivity].
Defined.

(** For a listing without objects the reply is 200, but its [books] is the
    nil slice the handler declared, which is written [null]: the reply is
    not an empty array. *)
Lemma empty_library_is_null :
  ListObjectsV2 emptyBucket
    {| ListObjectsV2Input.Bucket := "books-uploaded";
       ListObjectsV2Input.Prefix := "users/42/" |}
  = inl {| ListObjectsV2Output.Contents := [] |}
  ∧ response (run (showLibrary emptyBucket libraryRequest))
    = Some {| code := 200; obj := {[ "books" := ABooks GoSlice.Nil ]} |}
  ∧ renderJSON (ABooks GoSlice.Nil) = JNull
  ∧ renderJSON (ABooks GoSlice.Nil) ≠ JArray [].
Proof. repeat split; done. Qed.

(** C3, amended. When the backend answers the listing with N keys,
    [showLibrary] replies 200 with [books] holding exactly N entries, in
    the order of the answer, the entry at each position having as [url]
    the bucket's root followed by the key at that position, as [thumbnail]
    the root followed by ["thumbnails/" + key + ".jpg"], and as [name] the
    key.  For N at least one [books] is written as the array of these
    entries.  For no key the reply is still 200, not an error, but [books]
    is the nil slice, written [null], not an empty array. *)
Theorem showLibrary_entries (s3Client : S3Client) (c : Context.t)
    (resp : ListObjectsV2Output.t) (keys : list string) :
  Context.Query c "userId" ≠ "" →
  ListObjectsV2 s3Client
    {| ListObjectsV2Input.Bucket := bucketName;
       ListObjectsV2Input.Prefix := listPrefix (Context.Query c "userId") |} = inl resp →
  Object.Key <$> ListObjectsV2Output.Contents resp = Some <$> keys →
  ∃ books,
    response (run (showLibrary s3Client c))
    = Some {| code := 200; obj := {[ "books" := ABooks books ]} |}
    ∧ GoSlice.len books = length keys
    ∧ (∀ (i : nat) (key : string),
         keys !! i = Some key →
         GoSlice.elements books !! i
         = Some {[ "url" := "https://books-uploaded.s3.amazonaws.com/" +:+ key;
                   "thumbnail" := "https://books-uploaded.s3.amazonaws.com/thumbnails/"
                                  +:+ key +:+ ".jpg";
                   "name" := key ]})
    ∧ (keys ≠ [] → renderJSON (ABooks books) = JArray (GoSlice.elements books))
    ∧ (keys = [] → books = GoSlice.Nil ∧ renderJSON (ABooks books) = JNull).
Proof.
  intros Hne Hlist Hkeys. rewrite run_showLibrary. cbn zeta.
  rewrite bool_decide_eq_false_2 by done. rewrite Hlist.
  rewrite (keysBeforeNil_keyed _ keys Hkeys).
  assert (length keys = length (ListObjectsV2Output.Contents resp)) as Hlen.
  { apply (f_equal length) in Hkeys. rewrite !length_fmap in Hkeys. done. }
  rewrite bool_decide_eq_true_2 by done.
  exists (appendAll GoSlice.Nil (libraryEntry <$> keys)).
  split; [done |]. rewrite appendAll_Nil.
  destruct keys as [|key0 keys']; [repeat split; done |].
  split; [unfold GoSlice.len; simpl; by rewrite length_fmap |].
  split; [| split; done].
  intros i key Hi.
  change (GoSlice.elements _) with (libraryEntry <$> key0 :: keys').
  rewrite list_lookup_fmap, Hi. simpl.
  unfold libraryEntry. by rewrite thumbnailURL_explicit.
Qed.

Lemma showLibrary_entries_witness :
  ∃ books,
    response (run (showLibrary twoBooks libraryRequest))
    = Some {| code := 200; obj := {[ "books" := ABooks books ]} |}
    ∧ GoSlice.len books = 2%nat
    ∧ GoSlice.elements books !! 1%nat
      = Some {[ "url" := "https://books-uploaded.s3.amazonaws.com/users/42/a.pdf";
                "thumbnail" :=
                  "https://books-uploaded.s3.amazonaws.com/thumbnails/users/42/a.pdf.jpg";
                "name" := "users/42/a.pdf" ]}.
Proof.
  destruct (showLibrary_entries twoBooks libraryRequest
              {| ListObjectsV2Output.Contents :=
                   [ {| Object.Key := Some "users/42/b.pdf" |};
                     {| Object.Key := Some "users/42/a.pdf" |} ] |}
              [ "users/42/b.pdf"; "users/42/a.pdf" ])
    as (books & Hresp & Hlen & Hentries & _); [done | reflexivity | reflexivity |].
  exists books. split; [exact Hresp |]. split; [exact Hlen |].
  exact (Hentries 1%nat "users/42/a.pdf" eq_refl).
Defined.

(** C6. With an empty owner [showLibrary] replies 400 with the error
    "Missing userId" and does nothing else: its trace is empty, so the
    backend's listing is not called. *)
Theorem showLibrary_missing_owner (s3Client : S3Client) (c : Context.t) :
  Context.Query c "userId" = "" →
  response (run (showLibrary s3Client c))
  = Some {| code := 400; obj := {[ "error" := AString "Missing userId" ]} |}
  ∧ (run (showLibrary s3Client c)).2 = []
  ∧ backendCalls (run (showLibrary s3Client c)) = 0%nat.
Proof.
  intros Hq. rewrite run_showLibrary. simpl. by rewrite Hq.
Qed.

Lemma showLibrary_missing_owner_witness :
  response (run (showLibrary twoBooks bareRequest))
  = Some {| code := 400; obj := {[ "error" := AString "Missing userId" ]} |}
  ∧ (run (showLibrary twoBooks bareRequest)).2 = []
  ∧ backendCalls (run (showLibrary twoBooks bareRequest)) = 0%nat.
Proof. apply (showLibrary_missing_owner twoBooks bareRequest). reflexivity. Defined.

(** C8. The URL of an object and of its thumbnail are functions of the
    key alone: the namespace root followed by the key, respectively by
    ["thumbnails/" + key + ".jpg"]; the upload handler's URL is the same
    function, and the entry the listing loop builds for a key does not
    depend on what happened before. *)
Theorem URLs_pure (key : string) :
  pdfURL key = namespaceRoot +:+ key
  ∧ fileURL key = pdfURL key
  ∧ thumbnailURL key = namespaceRoot +:+ "thumbnails/" +:+ key +:+ ".jpg"
  ∧ thumbnailURL key = pdfURL ("thumbnails/" +:+ key +:+ ".jpg")
  ∧ ∀ (books : GoSlice.t (gmap string string)) (t t' : list Event),
      (rangeContents [ {| Object.Key := Some key |} ] books t).1
      = (rangeContents [ {| Object.Key := Some key |} ] books t').1.
Proof.
  split; [done |]. split; [done |]. split; [apply thumbnailURL_root |].
  split; [rewrite thumbnailURL_root; reflexivity |].
  intros books t t'. by rewrite !rangeContents_run.
Qed.

(** ** The form under a replaced part header *)

Lemma find_fmap_preserved {A : Type} (pred : A → bool) (g : A → A) (l : list A) :
  (∀ x, pred (g x) = pred x) → List.find pred (g <$> l) = g <$> List.find pred l.
Proof.
  intros Hpred. induction l as [|x l IH]; [done |].
  simpl. rewrite Hpred. by destruct (pred x).
Qed.

Lemma FormFile_withPartHeader (c : Context.t) (header : gmap string string) :
  Context.FormFile (withPartHeader c header) "pdf"
  = match Context.FormFile c "pdf" with
    | inl file => inl {| FileHeader.Filename := FileHeader.Filename file;
                         FileHeader.Header := header;
                         FileHeader.Open := FileHeader.Open file |}
    | inr err => inr err
    end.
Proof.
  unfold Context.FormFile, Context.MultipartFile, withPartHeader. simpl.
  rewrite find_fmap_preserved.
  - destruct (List.find _ _) as [p |] eqn:Hfind; simpl; [| done].
    apply List.find_some in Hfind as [_ Hfile].
    apply bool_decide_eq_true in Hfile as [Hname _].
    rewrite bool_decide_eq_true_2 by done. simpl.
    by destruct (Part.OpenError p 0).
  - intros p. unfold Part.isFile. by destruct (bool_decide (Part.FormName p = "pdf")).
Qed.

Lemma PostForm_withPartHeader (c : Context.t) (header : gmap string string) (key : string) :
  Context.PostForm (withPartHeader c header) key = Context.PostForm c key.
Proof.
  unfold Context.PostForm, withPartHeader. simpl.
  rewrite find_fmap_preserved.
  - destruct (List.find _ _) as [p |]; simpl; [| done].
    by destruct (bool_decide (Part.FormName p = "pdf")).
  - intros p. unfold Part.isValue. by destruct (bool_decide (Part.FormName p = "pdf")).
Qed.

(** ** The adapter *)

(** [UploaderAdapter.Upload] hands the manager's error on unchanged and
    keeps, of a successful answer, the entity tag. *)
Lemma UploaderAdapter_Upload_spec (m : manager_Uploader) (input : PutObjectInput.t) :
  Upload (NewUploaderAdapter m) input
  = match manager_Upload m input with
    | inr err => inr err
    | inl result => inl {| PutObjectOutput.ETag := UploadOutput.ETag result |}
    end.
Proof. reflexivity. Qed.

(** ** Upload *)

(** Every call of the uploader is made for a request with a file part and
    a non-empty folder, after the file was opened, and it stores the
    opened bytes under the computed key. *)
Lemma writes_handleUpload `{FileUploader U} (c : Context.t) (uploader : U)
    (input : PutObjectInput.t) :
  input ∈ writes (run (handleUpload c uploader)) →
  ∃ file f,
    Context.FormFile c "pdf" = inl file
    ∧ Context.PostForm c "s3_path" ≠ ""
    ∧ FileHeader.Open file 1%nat = inl f
    ∧ BuildKey (Context.PostForm c "s3_path") (FileHeader.Filename file)
      = Some (PutObjectInput.Key input)
    ∧ input = {| PutObjectInput.Bucket := "books-uploaded";
                 PutObjectInput.Key := PutObjectInput.Key input;
                 PutObjectInput.Body := f;
                 PutObjectInput.ACL := "public-read";
                 PutObjectInput.ContentType := "application/pdf" |}
    ∧ writes (run (handleUpload c uploader)) = [input]
    ∧ response (run (handleUpload c uploader))
      = Some match Upload uploader input with
             | inr _ =>
               {| code := 500; obj := {[ "error" := AString "Failed to upload file" ]} |}
             | inl _ =>
               {| code := 200;
                  obj := {[ "pdf_url" := AString (fileURL (PutObjectInput.Key input));
                            "pdf_name" := AString (FileHeader.Filename file) ]} |}
             end.
Proof.
  rewrite run_handleUpload. unfold writes, BuildKey, s3Key.
  destruct (Context.FormFile c "pdf") as [file | err]; [| by intros ?%elem_of_nil].
  simpl. case_bool_decide as Hfolder; [by intros ?%elem_of_nil |].
  destruct (FileHeader.Open file 1%nat) as [f | openErr] eqn:Hopen;
    [| by intros ?%elem_of_nil].
  unfold uploads; simpl. intros ->%list_elem_of_singleton.
  exists file, f. rewrite ensureTrailingSlash_nonempty by done. simpl.
  repeat split; done.
Qed.


(** C4. When the request has a file part with a non-empty name and a
    non-empty folder, and the write the handler sends to the uploader
    succeeds, the reply is 200 with [pdf_url] the namespace root followed
    by the computed key, so ending with that key, and [pdf_name] the file
    name as it came. *)
Theorem handleUpload_success `{FileUploader U} (c : Context.t) (uploader : U)
    (file : FileHeader.t) (input : PutObjectInput.t) (ack : PutObjectOutput.t) :
  Context.FormFile c "pdf" = inl file →
  Context.PostForm c "s3_path" ≠ "" →
  FileHeader.Filename file ≠ "" →
  input ∈ writes (run (handleUpload c uploader)) →
  Upload uploader input = inl ack →
  ∃ key,
    BuildKey (Context.PostForm c "s3_path") (FileHeader.Filename file) = Some key
    ∧ PutObjectInput.Key input = key
    ∧ response (run (handleUpload c uploader))
      = Some {| code := 200;
                obj := {[ "pdf_url" := AString (namespaceRoot +:+ key);
                          "pdf_name" := AString (FileHeader.Filename file) ]} |}
    ∧ GoString.HasSuffix (namespaceRoot +:+ key) key = true.
Proof.
  intros Hfile _ _ Hin Hack.
  destruct (writes_handleUpload c uploader input Hin)
    as (file' & f & Hfile' & _ & _ & Hkey & _ & _ & Hresp).
  assert (file' = file) as -> by congruence.
  exists (PutObjectInput.Key input). rewrite Hack in Hresp.
  repeat split; [done | done | apply GoStringFacts.HasSuffix_app].
Qed.

Lemma handleUpload_success_witness :
  ∃ key,
    BuildKey "users/42" "book.pdf" = Some key
    ∧ key = "users/42/book.pdf"
    ∧ response (run (handleUpload uploadRequest acceptAll))
      = Some {| code := 200;
                obj := {[ "pdf_url" := AString (namespaceRoot +:+ key);
                          "pdf_name" := AString "book.pdf" ]} |}.
Proof.
  destruct (handleUpload_success uploadRequest acceptAll bookPart
              {| PutObjectInput.Bucket := "books-uploaded";
                 PutObjectInput.Key := "users/42/book.pdf";
                 PutObjectInput.Body := "%PDF-1.4";
                 PutObjectInput.ACL := "public-read";
                 PutObjectInput.ContentType := "application/pdf" |}
              {| PutObjectOutput.ETag := Some "etag" |})
    as (key & Hkey & Hinput & Hresp & _);
    [reflexivity | done | done | apply list_elem_of_here | reflexivity |].
  exists key. split; [exact Hkey |]. split; [by rewrite <- Hinput | exact Hresp].
Defined.

(** C9. Whatever the request, an object the handler sends to the uploader
    has content type "application/pdf" and access policy "public-read";
    the MIME header the client sent with the file part has no influence
    on what is sent. *)
Theorem handleUpload_fixed_metadata `{FileUploader U} (c : Context.t) (uploader : U)
    (input : PutObjectInput.t) :
  input ∈ writes (run (handleUpload c uploader)) →
  PutObjectInput.ContentType input = "application/pdf"
  ∧ PutObjectInput.ACL input = "public-read"
  ∧ ∀ header : gmap string string,
      writes (run (handleUpload (withPartHeader c header) uploader))
      = writes (run (handleUpload c uploader)).
Proof.
  intros Hin.
  destruct (writes_handleUpload c uploader input Hin)
    as (file & f & _ & _ & _ & _ & Hinput & _).
  split; [by rewrite Hinput |]. split; [by rewrite Hinput |].
  intros header. rewrite !run_handleUpload.
  rewrite FormFile_withPartHeader, PostForm_withPartHeader.
  by destruct (Context.FormFile c "pdf").
Qed.

Lemma handleUpload_fixed_metadata_witness :
  writes (run (handleUpload uploadRequest acceptAll))
  = [ {| PutObjectInput.Bucket := "books-uploaded";
         PutObjectInput.Key := "users/42/book.pdf";
         PutObjectInput.Body := "%PDF-1.4";
         PutObjectInput.ACL := "public-read";
         PutObjectInput.ContentType := "application/pdf" |} ]
  ∧ FileHeader.Header bookPart !! "Content-Type" = Some "text/plain"
  ∧ writes (run (handleUpload
                   (withPartHeader uploadRequest {[ "Content-Type" := "image/png" ]})
                   acceptAll))
    = writes (run (handleUpload uploadRequest acceptAll)).
Proof.
  split; [reflexivity |]. split; [reflexivity |].
  apply (handleUpload_fixed_metadata uploadRequest acceptAll
           {| PutObjectInput.Bucket := "books-uploaded";
              PutObjectInput.Key := "users/42/book.pdf";
              PutObjectInput.Body := "%PDF-1.4";
              PutObjectInput.ACL := "public-read";
              PutObjectInput.ContentType := "application/pdf" |}).
  apply list_elem_of_here.
Defined.








(** * Further properties of the handlers *)

(** ** Every path of [handleUpload] *)

(** Lookups in the literal payloads, and the facts about statuses that
    remain once they are evaluated. *)
Ltac payload_lookup :=
  repeat first
    [ rewrite lookup_insert_eq
    | rewrite lookup_insert_ne by done
    | rewrite lookup_singleton_eq
    | rewrite lookup_singleton_ne by done ].

Ltac payload_facts :=
  simpl; payload_lookup; rewrite ?is_Some_alt;
  repeat split; intros; try done; try lia; auto.

(** X1. [handleUpload] never panics, the slice [s3Folder[len(s3Folder)-1:]]
    being guarded by the test for the empty folder: every run ends with a
    reply, of status 200, 400 or 500, whose payload has a ["pdf_url"] and a
    ["pdf_name"] exactly when the status is 200 and an ["error"] exactly
    when it is not. *)
Theorem handleUpload_always_replies `{FileUploader U} (c : Context.t) (uploader : U) :
  ∃ resp,
    (run (handleUpload c uploader)).1 = Replied resp
    ∧ (code resp = 200 ∨ code resp = 400 ∨ code resp = 500)
    ∧ (is_Some (obj resp !! "error") ↔ code resp ≠ 200)
    ∧ (is_Some (obj resp !! "pdf_url") ↔ code resp = 200)
    ∧ (is_Some (obj resp !! "pdf_name") ↔ code resp = 200).
Proof.
  rewrite run_handleUpload.
  destruct (Context.FormFile c "pdf") as [file | err]; simpl;
    [case_bool_decide; simpl;
     [| destruct (FileHeader.Open file 1%nat) as [f | openErr]; simpl;
        [destruct (Upload uploader _) |]] |];
    eexists; (split; [done |]); payload_facts.
Qed.

(** X2. The status tells what happened at the backend: 400 exactly when
    nothing at all was done (no file opened, no write sent), 500 exactly
    when the one write that was sent was refused, 200 exactly when it was
    accepted. *)
Theorem handleUpload_status_cause `{FileUploader U} (c : Context.t) (uploader : U) :
  ∃ resp,
    response (run (handleUpload c uploader)) = Some resp
    ∧ (code resp = 400 ↔ (run (handleUpload c uploader)).2 = [])
    ∧ (code resp = 500 ↔
       ∃ input err, writes (run (handleUpload c uploader)) = [input]
                    ∧ Upload uploader input = inr err)
    ∧ (code resp = 200 ↔
       ∃ input ack, writes (run (handleUpload c uploader)) = [input]
                    ∧ Upload uploader input = inl ack).
Proof.
  rewrite run_handleUpload. unfold response, writes, uploads.
  destruct (Context.FormFile c "pdf") as [file | err]; simpl;
    [case_bool_decide; simpl;
     [| destruct (FileHeader.Open file 1%nat) as [f | openErr]; simpl;
        [destruct (Upload uploader _) as [ack | uploadErr] eqn:Hup |]] |];
    eexists; (split; [done |]); simpl;
    (split; [split; done | split; split]); try done;
    try (by intros (? & ? & [=] & _));
    try (intros (? & ? & [= <-] & ?); congruence).
  - intros _. by eexists _, ack.
  - intros _. by eexists _, uploadErr.
Qed.

(** X3. A request causes at most one write, and it causes one exactly when
    it has a file part, a non-empty folder, and the file opens. *)
Theorem handleUpload_write_iff `{FileUploader U} (c : Context.t) (uploader : U) :
  (length (writes (run (handleUpload c uploader))) ≤ 1)%nat
  ∧ (length (writes (run (handleUpload c uploader))) = 1%nat ↔
     ∃ file f, Context.FormFile c "pdf" = inl file
               ∧ Context.PostForm c "s3_path" ≠ ""
               ∧ FileHeader.Open file 1%nat = inl f).
Proof.
  rewrite run_handleUpload. unfold writes, uploads.
  destruct (Context.FormFile c "pdf") as [file | err]; simpl.
  - case_bool_decide as Hfolder; simpl.
    + split; [lia |]. split; [done |]. by intros (? & ? & [= <-] & ? & _).
    + destruct (FileHeader.Open file 1%nat) as [f | openErr] eqn:Hopen; simpl.
      * split; [lia |]. split; [| done]. intros _. by exists file, f.
      * split; [lia |]. split; [done |]. intros (? & ? & [= <-] & _ & ?). congruence.
  - split; [lia |]. split; [done |]. by intros (? & ? & [=] & _).
Qed.



(** X15. A request whose file part is there but cannot be opened when
    [c.FormFile] tries is answered like a request without a file: 400
    "Failed to upload file", before the folder is looked at and with
    nothing done. *)
Theorem handleUpload_unopenable_part `{FileUploader U} (c : Context.t) (uploader : U)
    (file : FileHeader.t) (err : error) :
  Context.MultipartFile c "pdf" = Some file →
  FileHeader.Open file 0%nat = inr err →
  run (handleUpload c uploader)
  = (Replied {| code := 400; obj := {[ "error" := AString "Failed to upload file" ]} |}, []).
Proof.
  intros Hfile Hopen. rewrite run_handleUpload.
  unfold Context.FormFile. by rewrite Hfile, Hopen.
Qed.

Lemma handleUpload_unopenable_part_witness :
  run (handleUpload lostRequest acceptAll)
  = (Replied {| code := 400; obj := {[ "error" := AString "Failed to upload file" ]} |}, []).
Proof.
  apply (handleUpload_unopenable_part lostRequest acceptAll
           (Part.fileHeader lostFormPart) "open : no such file or directory");
    reflexivity.
Defined.

(** X5. When the uploader refuses the write the reply is 500 with the
    fixed payload "Failed to upload file", whatever the error was: the
    backend's message does not reach the client, and no URL is returned. *)
Theorem handleUpload_store_failure `{FileUploader U} (c : Context.t) (uploader : U)
    (input : PutObjectInput.t) (uploadErr : error) :
  input ∈ writes (run (handleUpload c uploader)) →
  Upload uploader input = inr uploadErr →
  response (run (handleUpload c uploader))
  = Some {| code := 500; obj := {[ "error" := AString "Failed to upload file" ]} |}
  ∧ writes (run (handleUpload c uploader)) = [input].
Proof.
  intros Hin Herr.
  destruct (writes_handleUpload c uploader input Hin)
    as (file & f & _ & _ & _ & _ & _ & Hwrites & Hresp).
  by rewrite Herr in Hresp.
Qed.

Lemma handleUpload_store_failure_witness :
  response (run (handleUpload uploadRequest rejectAll))
  = Some {| code := 500; obj := {[ "error" := AString "Failed to upload file" ]} |}
  ∧ length (writes (run (handleUpload uploadRequest rejectAll))) = 1%nat.
Proof.
  destruct (handleUpload_store_failure uploadRequest rejectAll
              {| PutObjectInput.Bucket := "books-uploaded";
                 PutObjectInput.Key := "users/42/book.pdf";
                 PutObjectInput.Body := "%PDF-1.4";
                 PutObjectInput.ACL := "public-read";
                 PutObjectInput.ContentType := "application/pdf" |}
              "AccessDenied") as [Hresp Hwrites];
    [apply list_elem_of_here | reflexivity |].
  split; [exact Hresp | by rewrite Hwrites].
Defined.

(** X6. The deferred [f.Close()]: a run either touches nothing, or it
    opens the file, sends one write and closes the file, in this order;
    so a file that was opened is closed exactly once, after the write,
    whether the write succeeded or not. *)
Theorem handleUpload_file_closed `{FileUploader U} (c : Context.t) (uploader : U) :
  (run (handleUpload c uploader)).2 = []
  ∨ ∃ file input,
      Context.FormFile c "pdf" = inl file
      ∧ (run (handleUpload c uploader)).2
        = [ FileOpened (FileHeader.Filename file);
            UploadCalled input;
            FileClosed (FileHeader.Filename file) ].
Proof.
  rewrite run_handleUpload.
  destruct (Context.FormFile c "pdf") as [file | err]; simpl; [| by left].
  case_bool_decide; simpl; [by left |].
  destruct (FileHeader.Open file 1%nat) as [f | openErr]; simpl; [| by left].
  right. by eexists file, _.
Qed.

(** X7. The object that is sent: it goes to the bucket "books-uploaded",
    its body is the bytes the file part opened to, and its key is the
    folder, one ["/"] added unless the folder already ends with one,
    followed by the file name exactly as the client gave it.  The key is
    never empty and its length is the sum of the lengths of its parts. *)
Theorem handleUpload_written_object `{FileUploader U} (c : Context.t) (uploader : U)
    (input : PutObjectInput.t) :
  input ∈ writes (run (handleUpload c uploader)) →
  ∃ file f separator,
    Context.FormFile c "pdf" = inl file
    ∧ FileHeader.Open file 1%nat = inl f
    ∧ PutObjectInput.Bucket input = "books-uploaded"
    ∧ PutObjectInput.Body input = f
    ∧ separator = (if GoString.HasSuffix (Context.PostForm c "s3_path") "/" then "" else "/")
    ∧ PutObjectInput.Key input
      = (Context.PostForm c "s3_path" +:+ separator) +:+ FileHeader.Filename file
    ∧ GoString.HasSuffix (Context.PostForm c "s3_path" +:+ separator) "/" = true
    ∧ PutObjectInput.Key input ≠ ""
    ∧ GoString.len (PutObjectInput.Key input)
      = GoString.len (Context.PostForm c "s3_path") + GoString.len separator
        + GoString.len (FileHeader.Filename file).
Proof.
  intros Hin.
  destruct (writes_handleUpload c uploader input Hin)
    as (file & f & Hfile & Hfolder & Hopen & Hkey & Hinput & _).
  unfold BuildKey, s3Key in Hkey.
  rewrite ensureTrailingSlash_nonempty in Hkey by done. simpl in Hkey.
  injection Hkey as Hkey.
  exists file, f, (if GoString.HasSuffix (Context.PostForm c "s3_path") "/" then "" else "/").
  assert ((if GoString.HasSuffix (Context.PostForm c "s3_path") "/"
           then Context.PostForm c "s3_path"
           else Context.PostForm c "s3_path" +:+ "/")
          = Context.PostForm c "s3_path"
            +:+ (if GoString.HasSuffix (Context.PostForm c "s3_path") "/" then "" else "/"))
    as Hsep.
  { destruct (GoString.HasSuffix _ "/"); [| done].
    symmetry. clear. induction (Context.PostForm c "s3_path") as [|x s IH]; [done |].
    rewrite GoStringFacts.app_cons. by f_equal. }
  rewrite Hsep in Hkey.
  split; [done |]. split; [done |].
  split; [by rewrite Hinput |]. split; [by rewrite Hinput |].
  split; [done |]. split; [done |]. split.
  - rewrite <- Hsep.
    destruct (GoString.HasSuffix _ "/") eqn:Hsuf; [done | apply GoStringFacts.HasSuffix_app].
  - rewrite <- Hkey, !GoStringFacts.len_app. split; [| done].
    intros Hempty. apply (f_equal GoString.len) in Hempty.
    rewrite !GoStringFacts.len_app in Hempty.
    pose proof (GoStringFacts.len_pos _ Hfolder).
    unfold GoString.len in *. simpl in Hempty. lia.
Qed.

Lemma handleUpload_written_object_witness :
  ∃ file f separator,
    Context.FormFile uploadRequest "pdf" = inl file
    ∧ FileHeader.Open file 1%nat = inl f
    ∧ separator = "/"
    ∧ "users/42/book.pdf" = ("users/42" +:+ separator) +:+ FileHeader.Filename file.
Proof.
  destruct (handleUpload_written_object uploadRequest acceptAll
              {| PutObjectInput.Bucket := "books-uploaded";
                 PutObjectInput.Key := "users/42/book.pdf";
                 PutObjectInput.Body := "%PDF-1.4";
                 PutObjectInput.ACL := "public-read";
                 PutObjectInput.ContentType := "application/pdf" |})
    as (file & f & separator & Hfile & Hopen & _ & _ & Hsep & Hkey & _);
    [apply list_elem_of_here |].
  exists file, f, separator. split; [exact Hfile |]. split; [exact Hopen |].
  split; [exact Hsep | exact Hkey].
Defined.

(** X8. Through the production adapter: the reply to a request whose write
    reached the upload manager is 200 exactly when the manager accepted
    the object and 500 exactly when it failed, and neither the manager's
    error nor its answer (location, entity tag) shows in the payload. *)
Theorem handleUpload_through_adapter (m : manager_Uploader) (c : Context.t)
    (input : PutObjectInput.t) :
  input ∈ writes (run (handleUpload c (NewUploaderAdapter m))) →
  ∃ file,
    Context.FormFile c "pdf" = inl file
    ∧ response (run (handleUpload c (NewUploaderAdapter m)))
      = Some match manager_Upload m input with
             | inr _ =>
               {| code := 500; obj := {[ "error" := AString "Failed to upload file" ]} |}
             | inl _ =>
               {| code := 200;
                  obj := {[ "pdf_url" := AString (namespaceRoot +:+ PutObjectInput.Key input);
                            "pdf_name" := AString (FileHeader.Filename file) ]} |}
             end.
Proof.
  intros Hin.
  destruct (writes_handleUpload c (NewUploaderAdapter m) input Hin)
    as (file & f & Hfile & _ & _ & _ & _ & _ & Hresp).
  exists file. split; [done |]. rewrite Hresp, UploaderAdapter_Upload_spec.
  by destruct (manager_Upload m input).
Qed.

Lemma handleUpload_through_adapter_witness :
  response (run (handleUpload uploadRequest (NewUploaderAdapter managerDown)))
  = Some {| code := 500; obj := {[ "error" := AString "Failed to upload file" ]} |}.
Proof.
  destruct (handleUpload_through_adapter managerDown uploadRequest
              {| PutObjectInput.Bucket := "books-uploaded";
                 PutObjectInput.Key := "users/42/book.pdf";
                 PutObjectInput.Body := "%PDF-1.4";
                 PutObjectInput.ACL := "public-read";
                 PutObjectInput.ContentType := "application/pdf" |})
    as (file & _ & Hresp); [apply list_elem_of_here |].
  exact Hresp.
Defined.

(** ** Every path of [showLibrary] *)

(** X9. When the listing fails the reply is 500 with the fixed payload
    "Failed to load library", whatever the error was; the backend was
    called once and nothing was logged. *)
Theorem showLibrary_list_failure (s3Client : S3Client) (c : Context.t) (err : error) :
  Context.Query c "userId" ≠ "" →
  ListObjectsV2 s3Client
    {| ListObjectsV2Input.Bucket := bucketName;
       ListObjectsV2Input.Prefix := listPrefix (Context.Query c "userId") |} = inr err →
  run (showLibrary s3Client c)
  = (Replied {| code := 500; obj := {[ "error" := AString "Failed to load library" ]} |},
     [ ListObjectsV2Called
         {| ListObjectsV2Input.Bucket := "books-uploaded";
            ListObjectsV2Input.Prefix := "users/" +:+ Context.Query c "userId" +:+ "/" |} ]).
Proof.
  intros Hne Herr. rewrite run_showLibrary. simpl.
  rewrite bool_decide_eq_false_2 by done. rewrite Herr.
  unfold listPrefix. by rewrite GoStringFacts.app_assoc.
Qed.

Lemma showLibrary_list_failure_witness :
  run (showLibrary brokenBucket libraryRequest)
  = (Replied {| code := 500; obj := {[ "error" := AString "Failed to load library" ]} |},
     [ ListObjectsV2Called
         {| ListObjectsV2Input.Bucket := "books-uploaded";
            ListObjectsV2Input.Prefix := "users/42/" |} ]).
Proof.
  apply (showLibrary_list_failure brokenBucket libraryRequest "AccessDenied");
    [done | reflexivity].
Defined.

Lemma length_loopLog (keys : list string) :
  length (loopLog keys) = (2 * length keys)%nat.
Proof.
  induction keys as [|key rest IH]; [done |].
  rewrite loopLog_cons. simpl. rewrite IH. lia.
Qed.

Lemma loopLog_lookup (keys : list string) (i : nat) (key : string) :
  keys !! i = Some key →
  loopLog keys !! (2 * i)%nat = Some (Logged ("PDF URL: " +:+ pdfURL key))
  ∧ loopLog keys !! (2 * i + 1)%nat
    = Some (Logged ("Thumbnail URL: " +:+ thumbnailURL key)).
Proof.
  revert i. induction keys as [|first rest IH]; intros i Hi; [done |].
  rewrite loopLog_cons. destruct i as [|i].
  - simpl in Hi. injection Hi as ->. done.
  - simpl in Hi. destruct (IH i Hi) as [Hpdf Hthumb].
    replace (2 * S i)%nat with (S (S (2 * i))) by lia.
    replace (S (S (2 * i)) + 1)%nat with (S (S (2 * i + 1))) by lia.
    done.
Qed.

(** The loop reaches the object at position [i] when that object and all
    before it have a key. *)
Lemma keysBeforeNil_lookup (Contents : list Object.t) (i : nat) (key : string) :
  (∀ (j : nat) (item : Object.t),
     (j ≤ i)%nat → Contents !! j = Some item → Object.Key item ≠ None) →
  Object.Key <$> Contents !! i = Some (Some key) →
  keysBeforeNil Contents !! i = Some key.
Proof.
  revert i. induction Contents as [|first rest IH]; intros i Hkeyed Hi; [done |].
  simpl. destruct (Object.Key first) as [key0 |] eqn:Hfirst.
  - destruct i as [|i]; simpl in *; [congruence |].
    apply IH; [| done]. intros j item Hj Hitem.
    apply (Hkeyed (S j) item); [lia | done].
  - exfalso. apply (Hkeyed 0%nat first); [lia | done | done].
Qed.

(** X10. What a listing does besides replying, once the backend has
    answered: it has called the backend once, first, and never calls the
    uploader; for each listed object that, like all objects before it,
    has a key, it logs two lines, the object's URL and its thumbnail URL,
    in the order of the listing; when every object has a key these are
    all the events, 1 + 2N of them. *)
Theorem showLibrary_trace (s3Client : S3Client) (c : Context.t)
    (resp : ListObjectsV2Output.t) :
  Context.Query c "userId" ≠ "" →
  ListObjectsV2 s3Client
    {| ListObjectsV2Input.Bucket := bucketName;
       ListObjectsV2Input.Prefix := listPrefix (Context.Query c "userId") |} = inl resp →
  (run (showLibrary s3Client c)).2 !! 0%nat
  = Some (ListObjectsV2Called
            {| ListObjectsV2Input.Bucket := "books-uploaded";
               ListObjectsV2Input.Prefix := "users/" +:+ Context.Query c "userId" +:+ "/" |})
  ∧ ((∀ item, item ∈ ListObjectsV2Output.Contents resp → Object.Key item ≠ None) →
     length (run (showLibrary s3Client c)).2
     = (1 + 2 * length (ListObjectsV2Output.Contents resp))%nat)
  ∧ (∀ (i : nat) (item : Object.t) (key : string),
       ListObjectsV2Output.Contents resp !! i = Some item →
       Object.Key item = Some key →
       (∀ (j : nat) (earlier : Object.t),
          (j ≤ i)%nat → ListObjectsV2Output.Contents resp !! j = Some earlier →
          Object.Key earlier ≠ None) →
       (run (showLibrary s3Client c)).2 !! (1 + 2 * i)%nat
       = Some (Logged ("PDF URL: " +:+ namespaceRoot +:+ key))
       ∧ (run (showLibrary s3Client c)).2 !! (2 + 2 * i)%nat
         = Some (Logged ("Thumbnail URL: " +:+ namespaceRoot +:+ "thumbnails/"
                         +:+ key +:+ ".jpg")))
  ∧ writes (run (showLibrary s3Client c)) = [].
Proof.
  intros Hne Hlist. rewrite run_showLibrary. cbn zeta.
  rewrite bool_decide_eq_false_2 by done. rewrite Hlist. cbn [snd].
  split; [unfold listPrefix; by rewrite GoStringFacts.app_assoc |].
  split; [| split].
  - intros Hall%keysBeforeNil_all. cbn [length]. by rewrite length_loopLog, Hall.
  - intros i item key Hi Hkey Hearlier.
    assert (keysBeforeNil (ListObjectsV2Output.Contents resp) !! i = Some key) as Hreach.
    { apply keysBeforeNil_lookup; [done |]. by rewrite Hi; simpl; rewrite Hkey. }
    destruct (loopLog_lookup _ i key Hreach) as [Hpdf Hthumb].
    rewrite thumbnailURL_root in Hthumb.
    replace (2 + 2 * i)%nat with (S (2 * i + 1)) by lia.
    split; [exact Hpdf | exact Hthumb].
  - unfold writes, uploads. cbn [snd omap list_omap].
    apply uploads_loopLog.
Qed.

Lemma showLibrary_trace_witness :
  length (run (showLibrary twoBooks libraryRequest)).2 = 5%nat
  ∧ writes (run (showLibrary twoBooks libraryRequest)) = [].
Proof.
  destruct (showLibrary_trace twoBooks libraryRequest
              {| ListObjectsV2Output.Contents :=
                   [ {| Object.Key := Some "users/42/b.pdf" |};
                     {| Object.Key := Some "users/42/a.pdf" |} ] |})
    as (_ & Hlen & _ & Hwrites); [done | reflexivity |].
  split; [| exact Hwrites].
  apply Hlen. intros item Hin. apply list_elem_of_In in Hin. simpl in Hin.
  destruct Hin as [<- | [<- | []]]; done.
Defined.

(** X11. How a run of [showLibrary] ends.  It panics, writing no reply,
    exactly when [userId] is not empty, the listing succeeded and one of
    the listed objects has a nil key, which line 159 dereferences
    unguarded.  Otherwise it replies, with status 200, 400 or 500: 400
    exactly when [userId] is empty or absent, which is exactly when nothing
    was done; ["books"] is in the payload exactly when the status is 200
    and ["error"] exactly when it is not.  In every case the backend is
    called once when [userId] is not empty and not at all when it is. *)
Theorem showLibrary_outcome (s3Client : S3Client) (c : Context.t) :
  ((run (showLibrary s3Client c)).1 = Panicked ↔
   Context.Query c "userId" ≠ ""
   ∧ ∃ resp item,
       ListObjectsV2 s3Client
         {| ListObjectsV2Input.Bucket := bucketName;
            ListObjectsV2Input.Prefix := listPrefix (Context.Query c "userId") |} = inl resp
       ∧ item ∈ ListObjectsV2Output.Contents resp
       ∧ Object.Key item = None)
  ∧ ((run (showLibrary s3Client c)).1 = Panicked
     ∨ ∃ resp,
         (run (showLibrary s3Client c)).1 = Replied resp
         ∧ (code resp = 200 ∨ code resp = 400 ∨ code resp = 500)
         ∧ (code resp = 400 ↔ Context.Query c "userId" = "")
         ∧ (code resp = 400 ↔ (run (showLibrary s3Client c)).2 = [])
         ∧ (is_Some (obj resp !! "books") ↔ code resp = 200)
         ∧ (is_Some (obj resp !! "error") ↔ code resp ≠ 200))
  ∧ (Context.Query c "userId" ≠ "" ↔ backendCalls (run (showLibrary s3Client c)) = 1%nat)
  ∧ (Context.Query c "userId" = "" ↔ backendCalls (run (showLibrary s3Client c)) = 0%nat).
Proof.
  rewrite run_showLibrary. unfold backendCalls. cbn zeta.
  case_bool_decide as Hq; simpl.
  - split; [split; [done | by intros [? _]] |].
    split; [right; eexists; split; [done |]; payload_facts |].
    split; split; done.
  - destruct (ListObjectsV2 s3Client _) as [resp | err]; simpl.
    + fold (uploads (loopLog (keysBeforeNil (ListObjectsV2Output.Contents resp)))).
      fold (listings (loopLog (keysBeforeNil (ListObjectsV2Output.Contents resp)))).
      rewrite uploads_loopLog, listings_loopLog. simpl.
      split; [| split; [| split; split; done]].
      * case_bool_decide as Hall; simpl.
        -- split; [done |]. intros (_ & resp' & item & [= <-] & Hin & Hnil).
           exfalso. by apply (proj1 (keysBeforeNil_all _) Hall item).
        -- split; [| done]. intros _. split; [done |].
           exists resp.
           assert (¬ Forall (λ item, Object.Key item ≠ None)
                            (ListObjectsV2Output.Contents resp)) as Hsome.
           { rewrite Forall_forall. by rewrite <- keysBeforeNil_all. }
           apply not_Forall_Exists in Hsome; [| intros item; apply _].
           apply Exists_exists in Hsome as (item & Hin & Hnil).
           exists item. split; [done |]. split; [done |].
           destruct (Object.Key item) as [key |] eqn:Hkey; [| done].
           exfalso. apply Hnil. simpl. congruence.
      * case_bool_decide; simpl; [right | by left].
        eexists; split; [done |]. payload_facts.
    + split; [split; [done | by intros (_ & ? & ? & [=] & _)] |].
      split; [right; eexists; split; [done |]; payload_facts |].
      split; split; done.
Qed.

Lemma showLibrary_outcome_witness :
  (run (showLibrary keylessObject libraryRequest)).1 = Panicked
  ∧ backendCalls (run (showLibrary keylessObject libraryRequest)) = 1%nat.
Proof.
  destruct (showLibrary_outcome keylessObject libraryRequest)
    as (Hpanic & _ & Hcalls & _).
  split; [| by apply Hcalls].
  apply Hpanic. split; [done |].
  exists {| ListObjectsV2Output.Contents :=
              [ {| Object.Key := Some "users/42/b.pdf" |}; {| Object.Key := None |} ] |},
         {| Object.Key := None |}.
  split; [reflexivity |]. split; [| reflexivity].
  apply list_elem_of_further, list_elem_of_here.
Defined.

(** ** Upload and listing together *)

Lemma drop_app_add (a b : string) (n : nat) :
  GoString.drop (String.length a + n) (a +:+ b) = GoString.drop n b.
Proof.
  induction a as [|x a IH]; [done |].
  rewrite GoStringFacts.app_cons. exact IH.
Qed.

(** Whether [a + b] ends with ["/"] is decided by [b], when [b] is not
    empty. *)
Lemma HasSuffix_slash_app (a b : string) :
  b ≠ "" → GoString.HasSuffix (a +:+ b) "/" = GoString.HasSuffix b "/".
Proof.
  intros Hb. pose proof (GoStringFacts.len_pos b Hb) as Hpos.
  unfold GoString.HasSuffix. change (GoString.len "/") with 1.
  rewrite GoStringFacts.len_app.
  rewrite (bool_decide_eq_true_2 (1 ≤ GoString.len a + GoString.len b))
    by (unfold GoString.len in *; lia).
  rewrite (bool_decide_eq_true_2 (1 ≤ GoString.len b)) by lia.
  replace (Z.to_nat (GoString.len a + GoString.len b - 1))
    with (String.length a + Z.to_nat (GoString.len b - 1))%nat
    by (unfold GoString.len in *; lia).
  by rewrite drop_app_add.
Qed.

(** X12. A file uploaded with [s3_path] ["users/" + userId], with or
    without a trailing ["/"], is stored under a key that starts with the
    prefix [showLibrary] lists for that [userId]: the key is that prefix
    followed by the file name.  This needs a [userId] that is not empty
    and does not itself end with ["/"]. *)
Theorem upload_key_under_list_prefix `{FileUploader U} (s3Client : S3Client)
    (cUpload cList : Context.t) (uploader : U) (userId : string)
    (file : FileHeader.t) (input : PutObjectInput.t) :
  userId ≠ "" →
  GoString.HasSuffix userId "/" = false →
  Context.PostForm cUpload "s3_path" = "users/" +:+ userId
  ∨ Context.PostForm cUpload "s3_path" = "users/" +:+ userId +:+ "/" →
  Context.FormFile cUpload "pdf" = inl file →
  input ∈ writes (run (handleUpload cUpload uploader)) →
  Context.Query cList "userId" = userId →
  ∃ listing,
    listings (run (showLibrary s3Client cList)).2 = [listing]
    ∧ PutObjectInput.Key input
      = ListObjectsV2Input.Prefix listing +:+ FileHeader.Filename file
    ∧ PutObjectInput.Bucket input = ListObjectsV2Input.Bucket listing.
Proof.
  intros Hne Hslash Hfolder Hfile Hin Hq.
  destruct (writes_handleUpload cUpload uploader input Hin)
    as (file' & f & Hfile' & Hnonempty & _ & Hkey & Hinput & _).
  assert (file' = file) as -> by congruence.
  eexists. split.
  { rewrite run_showLibrary. cbn zeta. rewrite Hq.
    rewrite bool_decide_eq_false_2 by done.
    destruct (ListObjectsV2 s3Client _) as [out | err]; cbn [snd]; [| done].
    unfold listings. cbn [omap list_omap].
    fold (listings (loopLog (keysBeforeNil (ListObjectsV2Output.Contents out)))).
    by rewrite listings_loopLog. }
  cbn [ListObjectsV2Input.Prefix ListObjectsV2Input.Bucket].
  split; [| by rewrite Hinput].
  unfold BuildKey, s3Key in Hkey.
  rewrite ensureTrailingSlash_nonempty in Hkey by done. simpl in Hkey.
  injection Hkey as <-. unfold listPrefix.
  destruct Hfolder as [-> | ->].
  - by rewrite HasSuffix_slash_app, Hslash by done.
  - replace ("users/" +:+ userId +:+ "/") with (("users/" +:+ userId) +:+ "/")
      by apply GoStringFacts.app_assoc.
    by rewrite GoStringFacts.HasSuffix_app.
Qed.

Lemma upload_key_under_list_prefix_witness :
  ∃ listing,
    listings (run (showLibrary twoBooks libraryRequest)).2 = [listing]
    ∧ "users/42/book.pdf" = ListObjectsV2Input.Prefix listing +:+ "book.pdf".
Proof.
  destruct (upload_key_under_list_prefix twoBooks uploadRequest libraryRequest acceptAll
              "42" bookPart
              {| PutObjectInput.Bucket := "books-uploaded";
                 PutObjectInput.Key := "users/42/book.pdf";
                 PutObjectInput.Body := "%PDF-1.4";
                 PutObjectInput.ACL := "public-read";
                 PutObjectInput.ContentType := "application/pdf" |})
    as (listing & Hlisting & Hkey & _);
    [done | reflexivity | by left | reflexivity | apply list_elem_of_here | reflexivity |].
  exists listing. split; [exact Hlisting | exact Hkey].
Defined.

(** X13. Different keys never share a URL: the object URL and the
    thumbnail URL are each injective in the key, and so is the entry the
    listing builds; the URL that an upload returns for a key is the one
    the listing shows for it. *)
Theorem URLs_injective (key1 key2 : string) :
  (pdfURL key1 = pdfURL key2 ↔ key1 = key2)
  ∧ (thumbnailURL key1 = thumbnailURL key2 ↔ key1 = key2)
  ∧ (libraryEntry key1 = libraryEntry key2 ↔ key1 = key2)
  ∧ libraryEntry key1 !! "url" = Some (fileURL key1).
Proof.
  split; [| split; [| split]].
  - split; [| by intros ->]. rewrite !pdfURL_root. apply String.app_inj.
  - split; [| by intros ->]. rewrite !thumbnailURL_root.
    intros Heq%String.app_inj%String.app_inj.
    by apply GoStringFacts.app_inv_tail in Heq.
  - split; [| by intros ->]. intros Heq.
    apply (f_equal (λ entry : gmap string string, entry !! "name")) in Heq.
    unfold libraryEntry in Heq. simpl in Heq.
    rewrite !lookup_insert_ne, !lookup_singleton_eq in Heq by done.
    by injection Heq.
  - unfold libraryEntry. by rewrite lookup_insert_eq.
Qed.

(** X14. The key depends on the folder and the file name only: two
    uploads that agree on both are written to the same key of the same
    bucket, whatever their contents, so the later one replaces the
    earlier; and a folder given with and without its trailing ["/"] is the
    same folder. *)
Theorem uploads_collide `{FileUploader U} (c1 c2 : Context.t) (uploader : U)
    (file1 file2 : FileHeader.t) (input1 input2 : PutObjectInput.t) :
  Context.FormFile c1 "pdf" = inl file1 →
  Context.FormFile c2 "pdf" = inl file2 →
  FileHeader.Filename file1 = FileHeader.Filename file2 →
  Context.PostForm c2 "s3_path" = Context.PostForm c1 "s3_path"
  ∨ (GoString.HasSuffix (Context.PostForm c1 "s3_path") "/" = false
     ∧ Context.PostForm c2 "s3_path" = Context.PostForm c1 "s3_path" +:+ "/") →
  input1 ∈ writes (run (handleUpload c1 uploader)) →
  input2 ∈ writes (run (handleUpload c2 uploader)) →
  PutObjectInput.Key input1 = PutObjectInput.Key input2
  ∧ PutObjectInput.Bucket input1 = PutObjectInput.Bucket input2.
Proof.
  intros Hfile1 Hfile2 Hname Hfolder Hin1 Hin2.
  destruct (writes_handleUpload c1 uploader input1 Hin1)
    as (file1' & f1 & Hfile1' & Hne1 & _ & Hkey1 & Hinput1 & _).
  destruct (writes_handleUpload c2 uploader input2 Hin2)
    as (file2' & f2 & Hfile2' & Hne2 & _ & Hkey2 & Hinput2 & _).
  assert (file1' = file1) as -> by congruence.
  assert (file2' = file2) as -> by congruence.
  split; [| by rewrite Hinput1, Hinput2].
  unfold BuildKey, s3Key in Hkey1, Hkey2.
  rewrite ensureTrailingSlash_nonempty in Hkey1, Hkey2 by done.
  simpl in Hkey1, Hkey2. injection Hkey1 as <-. injection Hkey2 as <-.
  rewrite Hname. destruct Hfolder as [-> | [Hno ->]]; [done |].
  by rewrite GoStringFacts.HasSuffix_app, Hno.
Qed.

Lemma uploads_collide_witness :
  "users/42/book.pdf" = "users/42/book.pdf" ∧ "books-uploaded" = "books-uploaded".
Proof.
  apply (uploads_collide uploadRequest
           {| Context.Form := [ Part.file "pdf" "book.pdf" ∅ "other bytes";
                                Part.field "s3_path" "users/42/" ];
              Context.QueryValue := ∅ |}
           acceptAll bookPart
           (Part.fileHeader (Part.file "pdf" "book.pdf" ∅ "other bytes"))
           {| PutObjectInput.Bucket := "books-uploaded";
              PutObjectInput.Key := "users/42/book.pdf";
              PutObjectInput.Body := "%PDF-1.4";
              PutObjectInput.ACL := "public-read";
              PutObjectInput.ContentType := "application/pdf" |}
           {| PutObjectInput.Bucket := "books-uploaded";
              PutObjectInput.Key := "users/42/book.pdf";
              PutObjectInput.Body := "other bytes";
              PutObjectInput.ACL := "public-read";
              PutObjectInput.ContentType := "application/pdf" |});
    [reflexivity | reflexivity | reflexivity | right; split; reflexivity
    | apply list_elem_of_here | apply list_elem_of_here].
Defined.
